(** * kubeadminit: the kubeadm init action of kind

    A shallow embedding of [pkg/cluster/internal/create/actions/kubeadminit/init.go]
    and the properties of its [Execute] method.

    [Execute] only sequences calls to collaborators (the status reporter, the
    logger, the node provider, the command runner and the node-to-node copy).
    The embedding therefore threads an abstract world through these calls and
    records every call, with its outcome, in a trace of events; the properties
    are statements about the returned error and this trace. *)

From Stdlib Require Import List String Ascii Arith Bool Lia.
Import ListNotations.
Open Scope string_scope.
Open Scope list_scope.

Set Implicit Arguments.

(** ** Errors ([sigs.k8s.io/kind/pkg/errors]) *)

(** An error is a message, possibly wrapped in further context:
    [errors.Errorf] makes a leaf, [errors.Wrap] adds a message around a cause. *)
Inductive error : Type :=
| Errorf (msg : string)
| Wrap (cause : error) (msg : string).

(** A Go [(value, error)] pair on which exactly one side is meaningful. *)
Inductive result (A : Type) : Type :=
| Ok (a : A)
| Err (e : error).
Arguments Ok {A} a.
Arguments Err {A} e.

(** ** Nodes and commands *)

(** Modelled from the spec: the [nodes.Node] handle, declared outside this
    package; a node has a stable identity and a role tag. *)
Inductive Role : Type := ControlPlane | Worker.

Record Node : Type := mkNode { node_name : string; node_role : Role }.

(** [node.Command(name, args...)]: a command bound to the node it will run on. *)
Record Cmd : Type := mkCmd {
  cmd_node : Node;
  cmd_name : string;
  cmd_args : list string
}.

Definition Command (n : Node) (name : string) (args : list string) : Cmd :=
  mkCmd n name args.

Definition Role_eqb (a b : Role) : bool :=
  match a, b with
  | ControlPlane, ControlPlane | Worker, Worker => true
  | _, _ => false
  end.

Definition Node_eqb (a b : Node) : bool :=
  String.eqb (node_name a) (node_name b) && Role_eqb (node_role a) (node_role b).

(** ** Events: every call [Execute] makes on a collaborator *)

Inductive Event : Type :=
| StatusStart (msg : string)
| StatusEnd (success : bool)
| LogInfo (verbosity : nat) (msg : string)
| Exec (c : Cmd) (lines : list string) (err : option error)
| Copy (src dst : Node) (file : string) (err : option error).

(** ** The constants of [Execute] *)

Definition newline : string := String (ascii_of_nat 10) EmptyString.

(** [strings.Join(elems, sep)] *)
Definition strings_Join (elems : list string) (sep : string) : string :=
  String.concat sep elems.

Definition startMessage : string := "Starting control-plane 🕹️".

Definition kubeadmInitArgs : list string :=
  [ "init";
    "--skip-phases=preflight";
    "--config=/kind/kubeadm.conf";
    "--skip-token-print";
    "--v=6" ].

Definition kubeadmInit (node : Node) : Cmd :=
  Command node "kubeadm" kubeadmInitArgs.

Definition artifactFiles : list string :=
  [ "/etc/kubernetes/admin.conf";
    "/etc/kubernetes/pki/ca.crt"; "/etc/kubernetes/pki/ca.key";
    "/etc/kubernetes/pki/front-proxy-ca.crt"; "/etc/kubernetes/pki/front-proxy-ca.key";
    "/etc/kubernetes/pki/sa.pub"; "/etc/kubernetes/pki/sa.key";
    "/etc/kubernetes/pki/etcd/ca.crt"; "/etc/kubernetes/pki/etcd/ca.key" ].

Definition removeTaint (node : Node) : Cmd :=
  Command node "kubectl"
    [ "--kubeconfig=/etc/kubernetes/admin.conf";
      "taint"; "nodes"; "--all"; "node-role.kubernetes.io/master-" ].

Definition initFailedMsg : string := "failed to init node with kubeadm".
Definition copyFailedMsg : string := "failed to copy admin kubeconfig".
Definition taintFailedMsg : string := "failed to remove master taint".

(** The error kinds of the specification, as the wrapped errors the code
    returns. *)
Definition InitFailed (cause : error) : error := Wrap cause initFailedMsg.
Definition PropagationFailed (cause : error) : error := Wrap cause copyFailedMsg.
Definition TaintRemovalFailed (cause : error) : error := Wrap cause taintFailedMsg.

(** ** Collaborators *)

(** The outside world of one run: the node provider behind [ctx.Nodes()], the
    command runner behind [cmd.Run()] and the transport behind
    [nodeutils.CopyNodeToNode].  Each call may change the world [W] and each
    may fail. *)
Record Host (W : Type) : Type := mkHost {
  host_nodes : W -> result (list Node) * W;
  host_run : Cmd -> W -> list string * option error * W;
  host_copy : Node -> Node -> string -> W -> option error * W
}.

(** The node selection functions of [nodeutils], which [Execute] calls and
    whose code is outside this package. *)
Record NodeUtils : Type := mkNodeUtils {
  BootstrapControlPlaneNode : list Node -> result Node;
  SecondaryControlPlaneNodes : list Node -> result (list Node)
}.

(** Modelled from the spec: the Node Selector, [nodeutils.BootstrapControlPlaneNode]
    and [nodeutils.SecondaryControlPlaneNodes], whose code lies outside this
    package.  The bootstrap node is the first control-plane node of the NodeSet,
    the secondaries are the remaining control-plane nodes in order, and a
    NodeSet without a control-plane node is an error. *)
Definition isControlPlane (n : Node) : bool := Role_eqb (node_role n) ControlPlane.

Definition controlPlaneNodes (allNodes : list Node) : list Node :=
  filter isControlPlane allNodes.

Definition NoControlPlaneNode : error :=
  Errorf "expected at least one control-plane node".

Definition specBootstrap (allNodes : list Node) : result Node :=
  match controlPlaneNodes allNodes with
  | [] => Err NoControlPlaneNode
  | n :: _ => Ok n
  end.

Definition specSecondaries (allNodes : list Node) : result (list Node) :=
  match controlPlaneNodes allNodes with
  | [] => Err NoControlPlaneNode
  | _ :: rest => Ok rest
  end.

Definition specNodeUtils : NodeUtils := mkNodeUtils specBootstrap specSecondaries.

(** ** The action monad: world passing, a trace, and early return on error *)

Definition M (W A : Type) : Type := W -> result A * list Event * W.

Definition ret {W A} (a : A) : M W A := fun w => (Ok a, [], w).

Definition throw {W A} (e : error) : M W A := fun w => (Err e, [], w).

Definition bind {W A B} (m : M W A) (f : A -> M W B) : M W B :=
  fun w =>
    match m w with
    | (Ok a, t1, w1) =>
        match f a w1 with
        | (r, t2, w2) => (r, t1 ++ t2, w2)
        end
    | (Err e, t1, w1) => (Err e, t1, w1)
    end.

Notation "x <- m ;; k" := (bind m (fun x => k))
  (at level 61, m at next level, right associativity).
Notation "m ;;; k" := (bind m (fun _ => k))
  (at level 61, right associativity).

(** [if err != nil { return errors.Wrap(err, msg) }] around a call. *)
Definition wrapErr {W A} (m : M W A) (msg : string) : M W A :=
  fun w =>
    match m w with
    | (Err e, t, w1) => (Err (Wrap e msg), t, w1)
    | other => other
    end.

(** [defer d] before a body [m]: [d] runs when the body returns, whatever it
    returns, and its own result is dropped. *)
Definition defer {W A B} (d : M W B) (m : M W A) : M W A :=
  fun w =>
    match m w with
    | (r, t1, w1) =>
        match d w1 with
        | (_, t2, w2) => (r, t1 ++ t2, w2)
        end
    end.

Definition emit {W} (e : Event) : M W unit := fun w => (Ok tt, [e], w).

Definition ofResult {W A} (r : result A) : M W A :=
  match r with
  | Ok a => ret a
  | Err e => throw e
  end.

Definition ofError {W} (err : option error) : M W unit :=
  match err with
  | None => ret tt
  | Some e => throw e
  end.

(** [for _, x := range xs { if err := body(x); err != nil { return err } }] *)
Fixpoint forEach {W A} (xs : list A) (body : A -> M W unit) : M W unit :=
  match xs with
  | [] => ret tt
  | x :: rest => body x ;;; forEach rest body
  end.

(** ** The action *)

Section Action.

Variable W : Type.
Variable host : Host W.
Variable nodeutils : NodeUtils.

Definition Status_Start (msg : string) : M W unit := emit (StatusStart msg).
Definition Status_End (success : bool) : M W unit := emit (StatusEnd success).
Definition Logger_Info (v : nat) (msg : string) : M W unit := emit (LogInfo v msg).

(** [ctx.Nodes()] *)
Definition ctx_Nodes : M W (list Node) :=
  fun w => match host_nodes host w with (r, w1) => (r, [], w1) end.

(** [exec.CombinedOutputLines(cmd)]: runs the command and hands back the
    captured lines together with the error, never returning early itself. *)
Definition CombinedOutputLines (cmd : Cmd) : M W (list string * option error) :=
  fun w =>
    match host_run host cmd w with
    | (lines, err, w1) => (Ok (lines, err), [Exec cmd lines err], w1)
    end.

(** [cmd.Run()] *)
Definition Run (cmd : Cmd) : M W unit :=
  fun w =>
    match host_run host cmd w with
    | (lines, err, w1) =>
        (match err with None => Ok tt | Some e => Err e end,
         [Exec cmd lines err], w1)
    end.

(** [nodeutils.CopyNodeToNode(source, dest, file)] *)
Definition CopyNodeToNode (source dest : Node) (file : string) : M W unit :=
  fun w =>
    match host_copy host source dest file w with
    | (err, w1) =>
        (match err with None => Ok tt | Some e => Err e end,
         [Copy source dest file err], w1)
    end.

(** The nested loop of lines 83-99. *)
Definition copyArtifacts (node : Node) (otherControlPlanes : list Node) : M W unit :=
  forEach otherControlPlanes (fun otherNode =>
    forEach artifactFiles (fun file =>
      wrapErr (CopyNodeToNode node otherNode file) copyFailedMsg)).

(** Lines 46-114: what runs between [Status.Start] and the deferred
    [Status.End(false)]. *)
Definition ExecuteBody : M W unit :=
  allNodes <- ctx_Nodes ;;
  node <- ofResult (BootstrapControlPlaneNode nodeutils allNodes) ;;
  out <- CombinedOutputLines (kubeadmInit node) ;;
  Logger_Info 3 (strings_Join (fst out) newline) ;;;
  wrapErr (ofError (snd out)) initFailedMsg ;;;
  otherControlPlanes <- ofResult (SecondaryControlPlaneNodes nodeutils allNodes) ;;
  copyArtifacts node otherControlPlanes ;;;
  (if Nat.eqb (List.length allNodes) 1
   then wrapErr (Run (removeTaint node)) taintFailedMsg
   else ret tt) ;;;
  Status_End true.

Definition Execute : M W unit :=
  fun w =>
    match Status_Start startMessage w with
    | (_, t0, w0) =>
        match defer (Status_End false) ExecuteBody w0 with
        | (r, t, w1) => (r, t0 ++ t, w1)
        end
    end.

End Action.

(** ** Reading a trace *)

(** The copy operations attempted, in order, as (destination, file). *)
Fixpoint copiesOf (t : list Event) : list (Node * string) :=
  match t with
  | [] => []
  | Copy _ dst file _ :: rest => (dst, file) :: copiesOf rest
  | _ :: rest => copiesOf rest
  end.

(** The arguments of the status exit notifications, in order. *)
Fixpoint endsOf (t : list Event) : list bool :=
  match t with
  | [] => []
  | StatusEnd b :: rest => b :: endsOf rest
  | _ :: rest => endsOf rest
  end.

(** The commands issued against nodes, in order. *)
Fixpoint commandsOf (t : list Event) : list Cmd :=
  match t with
  | [] => []
  | Exec c _ _ :: rest => c :: commandsOf rest
  | _ :: rest => commandsOf rest
  end.

Definition isNodeOperation (e : Event) : bool :=
  match e with
  | Exec _ _ _ | Copy _ _ _ _ => true
  | _ => false
  end.

Fixpoint strings_eqb (a b : list string) : bool :=
  match a, b with
  | [], [] => true
  | x :: a', y :: b' => String.eqb x y && strings_eqb a' b'
  | _, _ => false
  end.

Definition Cmd_eqb (a b : Cmd) : bool :=
  Node_eqb (cmd_node a) (cmd_node b)
  && String.eqb (cmd_name a) (cmd_name b)
  && strings_eqb (cmd_args a) (cmd_args b).

(** Whether a command is the taint removal of lines 104-107, on whichever
    node it is bound to. *)
Definition isRemoveTaint (c : Cmd) : bool := Cmd_eqb c (removeTaint (cmd_node c)).

(** Whether the taint-removal command was issued. *)
Definition taintInvoked (t : list Event) : bool :=
  existsb isRemoveTaint (commandsOf t).

(** The full propagation order: secondaries outside, files inside. *)
Definition copySchedule (others : list Node) : list (Node * string) :=
  flat_map (fun other => map (fun file => (other, file)) artifactFiles) others.

(** The returned error and the trace of a run. *)
Definition resultOf {W A} (x : result A * list Event * W) : result A := fst (fst x).
Definition traceOf {W A} (x : result A * list Event * W) : list Event := snd (fst x).

(** The copy events of a trace, with their outcomes. *)
Definition isCopy (e : Event) : bool :=
  match e with
  | Copy _ _ _ _ => true
  | _ => false
  end.

Fixpoint copyEvents (t : list Event) : list Event :=
  match t with
  | [] => []
  | e :: rest => if isCopy e then e :: copyEvents rest else copyEvents rest
  end.

Definition isFailedCopy (e : Event) : bool :=
  match e with
  | Copy _ _ _ (Some _) => true
  | _ => false
  end.

Definition noCopyFailed (t : list Event) : bool :=
  negb (existsb isFailedCopy t).

(** The events of a run of successful copies from [node] along a schedule. *)
Definition okCopies (node : Node) (sched : list (Node * string)) : list Event :=
  map (fun p => Copy node (fst p) (snd p) None) sched.

(** Whether an event is a node operation that returned an error. *)
Definition isFailedOp (e : Event) : bool :=
  match e with
  | Exec _ _ (Some _) | Copy _ _ _ (Some _) => true
  | _ => false
  end.

(** The log entries of a trace, in order, as (verbosity, message). *)
Fixpoint logsOf (t : list Event) : list (nat * string) :=
  match t with
  | [] => []
  | LogInfo v msg :: rest => (v, msg) :: logsOf rest
  | _ :: rest => logsOf rest
  end.

(** ** A scripted host, to run the action on concrete inputs *)

(** The world of a scripted host is the number of copy calls made so far, so
    that the script can make the k-th copy fail. *)
Record Script : Type := mkScript {
  script_nodes : result (list Node);
  script_init : list string * option error;
  script_taint : option error;
  script_copy : nat -> option error
}.

Definition scripted (s : Script) : Host nat :=
  mkHost
    (fun w => (script_nodes s, w))
    (fun c w =>
       if String.eqb (cmd_name c) "kubeadm"
       then (fst (script_init s), snd (script_init s), w)
       else ([], script_taint s, w))
    (fun _ _ _ w => (script_copy s w, S w)).

Definition failAt (k : nat) (e : error) : nat -> option error :=
  fun i => if Nat.eqb i k then Some e else None.

Definition neverFails : nat -> option error := fun _ => None.

Definition nodeA : Node := mkNode "A" ControlPlane.
Definition nodeB : Node := mkNode "B" ControlPlane.
Definition nodeC : Node := mkNode "C" Worker.
Definition nodeD : Node := mkNode "D" ControlPlane.

Definition happy (ns : list Node) : Script :=
  mkScript (Ok ns) (["[init] done"], None) None neverFails.

(** Init succeeds, the copy call number [k] (from zero) fails. *)
Definition copyFailsAt (ns : list Node) (k : nat) : Script :=
  mkScript (Ok ns) (["[init] done"], None) None
    (failAt k (Errorf "exit status 1")).

(** The init command fails. *)
Definition initFails (ns : list Node) : Script :=
  mkScript (Ok ns) (["[init] preflight"; "[init] failed"],
                    Some (Errorf "exit status 1")) None neverFails.

(** [ctx.Nodes()] fails. *)
Definition nodesFail (e : error) : Script :=
  mkScript (Err e) ([], None) None neverFails.

(** Init and every copy succeed, the taint removal fails. *)
Definition taintFails (ns : list Node) : Script :=
  mkScript (Ok ns) (["[init] done"], None) (Some (Errorf "exit status 1"))
    neverFails.

(** A selector that finds the bootstrap node and then fails to list the
    secondaries. *)
Definition failingSecondaries : NodeUtils :=
  mkNodeUtils specBootstrap (fun _ => Err (Errorf "cannot inspect node role")).

Definition runOn (s : Script) : result unit * list Event * nat :=
  Execute (scripted s) specNodeUtils 0.

(** ** The runs of the action, path by path *)

(** What the propagation loop can do along a schedule: copy everything, or
    stop at the first copy that fails. *)
Inductive CopyOutcome (node : Node) (sched : list (Node * string))
  : result unit -> list Event -> Prop :=
| AllCopied :
    CopyOutcome node sched (Ok tt) (okCopies node sched)
| CopyFailedAt (k : nat) (dst : Node) (file : string) (cause : error) :
    nth_error sched k = Some (dst, file) ->
    CopyOutcome node sched (Err (PropagationFailed cause))
      (okCopies node (firstn k sched) ++ [Copy node dst file (Some cause)]).

Section Paths.

Variable W : Type.
Variable host : Host W.
Variable nodeutils : NodeUtils.

(** The single loop over the flattened schedule that the nested loop of
    [copyArtifacts] amounts to. *)
Definition copyLoop (node : Node) (sched : list (Node * string)) : M W unit :=
  forEach sched (fun p =>
    wrapErr (CopyNodeToNode host node (fst p) (snd p)) copyFailedMsg).

(** The paths through [Execute] from a world [w]: the returned error and the
    trace of each, with the collaborators' answers that select the path. *)
Inductive Path (w : W) : result unit -> list Event -> Prop :=
| PathNodesFailed e w1 :
    host_nodes host w = (Err e, w1) ->
    Path w (Err e) [StatusStart startMessage; StatusEnd false]
| PathNoBootstrap allNodes w1 e :
    host_nodes host w = (Ok allNodes, w1) ->
    BootstrapControlPlaneNode nodeutils allNodes = Err e ->
    Path w (Err e) [StatusStart startMessage; StatusEnd false]
| PathInitFailed allNodes w1 node lines e w2 :
    host_nodes host w = (Ok allNodes, w1) ->
    BootstrapControlPlaneNode nodeutils allNodes = Ok node ->
    host_run host (kubeadmInit node) w1 = (lines, Some e, w2) ->
    Path w (Err (InitFailed e))
      [StatusStart startMessage;
       Exec (kubeadmInit node) lines (Some e);
       LogInfo 3 (strings_Join lines newline);
       StatusEnd false]
| PathNoSecondaries allNodes w1 node lines w2 e :
    host_nodes host w = (Ok allNodes, w1) ->
    BootstrapControlPlaneNode nodeutils allNodes = Ok node ->
    host_run host (kubeadmInit node) w1 = (lines, None, w2) ->
    SecondaryControlPlaneNodes nodeutils allNodes = Err e ->
    Path w (Err e)
      [StatusStart startMessage;
       Exec (kubeadmInit node) lines None;
       LogInfo 3 (strings_Join lines newline);
       StatusEnd false]
| PathCopyFailed allNodes w1 node lines w2 others e tc :
    host_nodes host w = (Ok allNodes, w1) ->
    BootstrapControlPlaneNode nodeutils allNodes = Ok node ->
    host_run host (kubeadmInit node) w1 = (lines, None, w2) ->
    SecondaryControlPlaneNodes nodeutils allNodes = Ok others ->
    CopyOutcome node (copySchedule others) (Err e) tc ->
    Path w (Err e)
      (StatusStart startMessage ::
       Exec (kubeadmInit node) lines None ::
       LogInfo 3 (strings_Join lines newline) ::
       tc ++ [StatusEnd false])
| PathDone allNodes w1 node lines w2 others :
    host_nodes host w = (Ok allNodes, w1) ->
    BootstrapControlPlaneNode nodeutils allNodes = Ok node ->
    host_run host (kubeadmInit node) w1 = (lines, None, w2) ->
    SecondaryControlPlaneNodes nodeutils allNodes = Ok others ->
    List.length allNodes <> 1 ->
    Path w (Ok tt)
      (StatusStart startMessage ::
       Exec (kubeadmInit node) lines None ::
       LogInfo 3 (strings_Join lines newline) ::
       okCopies node (copySchedule others)
       ++ [StatusEnd true; StatusEnd false])
| PathTaintFailed allNodes w1 node lines w2 others tlines e :
    host_nodes host w = (Ok allNodes, w1) ->
    BootstrapControlPlaneNode nodeutils allNodes = Ok node ->
    host_run host (kubeadmInit node) w1 = (lines, None, w2) ->
    SecondaryControlPlaneNodes nodeutils allNodes = Ok others ->
    List.length allNodes = 1 ->
    Path w (Err (TaintRemovalFailed e))
      (StatusStart startMessage ::
       Exec (kubeadmInit node) lines None ::
       LogInfo 3 (strings_Join lines newline) ::
       okCopies node (copySchedule others)
       ++ [Exec (removeTaint node) tlines (Some e); StatusEnd false])
| PathDoneSingle allNodes w1 node lines w2 others tlines :
    host_nodes host w = (Ok allNodes, w1) ->
    BootstrapControlPlaneNode nodeutils allNodes = Ok node ->
    host_run host (kubeadmInit node) w1 = (lines, None, w2) ->
    SecondaryControlPlaneNodes nodeutils allNodes = Ok others ->
    List.length allNodes = 1 ->
    Path w (Ok tt)
      (StatusStart startMessage ::
       Exec (kubeadmInit node) lines None ::
       LogInfo 3 (strings_Join lines newline) ::
       okCopies node (copySchedule others)
       ++ [Exec (removeTaint node) tlines None; StatusEnd true; StatusEnd false]).

End Paths.

(** ** The failure contract of the copy *)

(** Modelled from the spec: the failure contract of the Artifact Propagator,
    [nodeutils.CopyNodeToNode], whose code lies outside this package: each
    failure retains which node and which path failed.  [describe] reads the
    destination node and the path off an error of the copy. *)
Definition retainsNodeAndPath {W} (host : Host W)
    (describe : error -> Node * string) : Prop :=
  forall src dst file w e w1,
    host_copy host src dst file w = (Some e, w1) -> describe e = (dst, file).

(** What an error returned by the action says of a failed copy: the wrapper
    of line 96 keeps the error of the copy as its cause, so the node and the
    path are read off the cause. *)
Definition failedCopyOf (describe : error -> Node * string) (e : error)
    : Node * string :=
  match e with
  | Wrap cause _ => describe cause
  | Errorf _ => describe e
  end.

(** An event that records an answer of the host records one the host gave. *)
Definition answeredBy {W} (host : Host W) (ev : Event) : Prop :=
  match ev with
  | Exec c lines err => exists w w1, host_run host c w = (lines, err, w1)
  | Copy src dst file err => exists w w1, host_copy host src dst file w = (err, w1)
  | _ => True
  end.

(** A computation whose trace holds only answers of the host. *)
Definition faithful {W A} (host : Host W) (m : M W A) : Prop :=
  forall w, Forall (answeredBy host) (traceOf (m w)).

(** A host on which node D refuses to take ca.crt, and says so. *)
Definition certRefused : error :=
  Errorf "failed to write /etc/kubernetes/pki/ca.crt to node D".

Definition refusingHost : Host unit :=
  mkHost
    (fun w => (Ok [nodeA; nodeB; nodeD], w))
    (fun c w => (["[init] done"], None, w))
    (fun src dst file w =>
       if Node_eqb dst nodeD && String.eqb file "/etc/kubernetes/pki/ca.crt"
       then (Some certRefused, w)
       else (None, w)).

Definition describeRefusal : error -> Node * string :=
  fun _ => (nodeD, "/etc/kubernetes/pki/ca.crt").

(** * Properties *)

(** ** The monad *)

Section MonadLemmas.

Context {W : Type}.

Lemma bind_assoc {A B C} (m : M W A) (f : A -> M W B) (g : B -> M W C) w :
  bind (bind m f) g w = bind m (fun a => bind (f a) g) w.
Proof.
  unfold bind.
  destruct (m w) as [[[a|e] t1] w1]; [|reflexivity].
  destruct (f a w1) as [[[b|e] t2] w2]; [|reflexivity].
  destruct (g b w2) as [[r t3] w3].
  now rewrite app_assoc.
Qed.

Lemma bind_ext {A B} (m : M W A) (f g : A -> M W B) w :
  (forall a w', f a w' = g a w') -> bind m f w = bind m g w.
Proof.
  intros E. unfold bind.
  destruct (m w) as [[[a|e] t1] w1]; [|reflexivity].
  now rewrite E.
Qed.

Lemma bind_ret_l {A B} (a : A) (f : A -> M W B) w :
  bind (ret a) f w = f a w.
Proof.
  unfold bind, ret. now destruct (f a w) as [[r t] w'].
Qed.

Lemma forEach_ext {A} (xs : list A) (f g : A -> M W unit) :
  (forall x w, f x w = g x w) ->
  forall w, forEach xs f w = forEach xs g w.
Proof.
  intros E. induction xs as [|x xs IH]; intros w; simpl; [reflexivity|].
  unfold bind. rewrite E.
  destruct (g x w) as [[[[]|e] t1] w1]; [|reflexivity].
  now rewrite IH.
Qed.

Lemma forEach_app {A} (xs ys : list A) (f : A -> M W unit) w :
  forEach (xs ++ ys) f w = bind (forEach xs f) (fun _ => forEach ys f) w.
Proof.
  revert w. induction xs as [|x xs IH]; intros w; simpl.
  - now rewrite bind_ret_l.
  - rewrite bind_assoc. apply bind_ext. intros _ w'. apply IH.
Qed.

Lemma forEach_map {A B} (g : A -> B) (xs : list A) (f : B -> M W unit) w :
  forEach (map g xs) f w = forEach xs (fun x => f (g x)) w.
Proof.
  revert w. induction xs as [|x xs IH]; intros w; simpl; [reflexivity|].
  apply bind_ext. intros _ w'. apply IH.
Qed.

Lemma forEach_flat_map {A B} (g : A -> list B) (xs : list A) (f : B -> M W unit) w :
  forEach (flat_map g xs) f w = forEach xs (fun x => forEach (g x) f) w.
Proof.
  revert w. induction xs as [|x xs IH]; intros w; simpl; [reflexivity|].
  rewrite forEach_app. apply bind_ext. intros _ w'. apply IH.
Qed.

End MonadLemmas.

(** ** The propagation loop *)

Section CopyLoop.

Variable W : Type.
Variable host : Host W.

(** The nested loop visits the flattened schedule. *)
Lemma copyArtifacts_copyLoop node others w :
  copyArtifacts host node others w = copyLoop host node (copySchedule others) w.
Proof.
  unfold copyArtifacts, copyLoop, copySchedule.
  rewrite forEach_flat_map.
  apply forEach_ext. intros other w'.
  now rewrite forEach_map.
Qed.

Lemma copyLoop_cons node p sched w :
  copyLoop host node (p :: sched) w =
  match host_copy host node (fst p) (snd p) w with
  | (Some e, w1) =>
      (Err (PropagationFailed e), [Copy node (fst p) (snd p) (Some e)], w1)
  | (None, w1) =>
      match copyLoop host node sched w1 with
      | (r, t, w2) => (r, Copy node (fst p) (snd p) None :: t, w2)
      end
  end.
Proof.
  unfold copyLoop at 1. simpl. unfold bind, wrapErr, CopyNodeToNode.
  destruct (host_copy host node (fst p) (snd p) w) as [[e|] w1]; reflexivity.
Qed.

Lemma copyLoop_outcome node sched :
  forall w,
    CopyOutcome node sched
      (resultOf (copyLoop host node sched w))
      (traceOf (copyLoop host node sched w)).
Proof.
  induction sched as [|[dst file] sched IH]; intros w.
  - apply AllCopied.
  - rewrite copyLoop_cons. simpl fst; simpl snd.
    destruct (host_copy host node dst file w) as [[e|] w1].
    + apply (CopyFailedAt node ((dst, file) :: sched) 0 e (dst:=dst) (file:=file)).
      reflexivity.
    + specialize (IH w1).
      destruct (copyLoop host node sched w1) as [[r t] w2].
      unfold resultOf, traceOf in *. simpl in *.
      inversion IH as [Hr Ht | k dst' file' cause Hk Hr Ht]; subst.
      * apply (AllCopied node ((dst, file) :: sched)).
      * apply (CopyFailedAt node ((dst, file) :: sched) (S k) cause
                 (dst:=dst') (file:=file')).
        exact Hk.
Qed.

Lemma copyArtifacts_outcome node others w :
  CopyOutcome node (copySchedule others)
    (resultOf (copyArtifacts host node others w))
    (traceOf (copyArtifacts host node others w)).
Proof.
  rewrite copyArtifacts_copyLoop. apply copyLoop_outcome.
Qed.

End CopyLoop.

(** ** Every run follows one of the paths *)

Section Runs.

Variable W : Type.
Variable host : Host W.
Variable nodeutils : NodeUtils.

Lemma Execute_path w :
  Path host nodeutils w
    (resultOf (Execute host nodeutils w)) (traceOf (Execute host nodeutils w)).
Proof.
  destruct (Execute host nodeutils w) as [[r t] w'] eqn:E.
  unfold resultOf, traceOf; simpl.
  unfold Execute, defer, ExecuteBody, Status_Start, Status_End, Logger_Info,
    emit, ctx_Nodes, CombinedOutputLines in E.
  unfold bind at 1 in E.
  destruct (host_nodes host w) as [[allNodes|e] w1] eqn:Hn;
    [|inversion E; subst; eapply PathNodesFailed; eassumption].
  unfold bind at 1 in E.
  destruct (BootstrapControlPlaneNode nodeutils allNodes) as [node|e] eqn:Hb;
    [|inversion E; subst; eapply PathNoBootstrap; eassumption].
  simpl ofResult in E. unfold ret at 1 in E.
  unfold bind at 1 in E.
  destruct (host_run host (kubeadmInit node) w1) as [[lines err] w2] eqn:Hi.
  unfold bind at 1 in E. unfold bind at 1 in E. unfold wrapErr at 1 in E.
  simpl fst in E; simpl snd in E.
  destruct err as [e|];
    [inversion E; subst; eapply PathInitFailed; eassumption|].
  simpl ofError in E. unfold ret at 1 in E.
  unfold bind at 1 in E.
  destruct (SecondaryControlPlaneNodes nodeutils allNodes) as [others|e] eqn:Hs;
    [|inversion E; subst; eapply PathNoSecondaries; eassumption].
  simpl ofResult in E. unfold ret at 1 in E.
  unfold bind at 1 in E.
  pose proof (copyArtifacts_outcome host node others w2) as Hc.
  destruct (copyArtifacts host node others w2) as [[[[]|e] tc] w3];
    unfold resultOf, traceOf in Hc; simpl in Hc.
  - inversion Hc as [Hr Ht|]; subst tc.
    unfold bind at 1 in E.
    destruct (Nat.eqb (List.length allNodes) 1) eqn:Hl.
    + apply Nat.eqb_eq in Hl.
      unfold wrapErr, Run in E.
      destruct (host_run host (removeTaint node) w3) as [[tlines [e|]] w4];
        inversion E; subst; rewrite <- ?app_assoc; simpl.
      * eapply PathTaintFailed; eassumption.
      * eapply PathDoneSingle; eassumption.
    + apply Nat.eqb_neq in Hl. inversion E; subst.
      rewrite <- ?app_assoc; simpl.
      eapply PathDone; eassumption.
  - inversion E; subst. eapply PathCopyFailed; eassumption.
Qed.

End Runs.

(** ** Reading the traces of the paths *)

Lemma copiesOf_app t1 t2 : copiesOf (t1 ++ t2) = copiesOf t1 ++ copiesOf t2.
Proof.
  induction t1 as [|e t1 IH]; [reflexivity|].
  destruct e; simpl; now rewrite ?IH.
Qed.

Lemma endsOf_app t1 t2 : endsOf (t1 ++ t2) = endsOf t1 ++ endsOf t2.
Proof.
  induction t1 as [|e t1 IH]; [reflexivity|].
  destruct e; simpl; now rewrite ?IH.
Qed.

Lemma commandsOf_app t1 t2 : commandsOf (t1 ++ t2) = commandsOf t1 ++ commandsOf t2.
Proof.
  induction t1 as [|e t1 IH]; [reflexivity|].
  destruct e; simpl; now rewrite ?IH.
Qed.

Lemma copiesOf_okCopies node sched : copiesOf (okCopies node sched) = sched.
Proof.
  induction sched as [|[dst file] sched IH]; simpl; [reflexivity|].
  now rewrite IH.
Qed.

Lemma endsOf_okCopies node sched : endsOf (okCopies node sched) = [].
Proof. induction sched as [|p sched IH]; simpl; assumption || reflexivity. Qed.

Lemma commandsOf_okCopies node sched : commandsOf (okCopies node sched) = [].
Proof. induction sched as [|p sched IH]; simpl; assumption || reflexivity. Qed.

Lemma copyEvents_app t1 t2 : copyEvents (t1 ++ t2) = copyEvents t1 ++ copyEvents t2.
Proof.
  induction t1 as [|e t1 IH]; [reflexivity|].
  destruct e; simpl; now rewrite ?IH.
Qed.

Lemma copyEvents_okCopies node sched :
  copyEvents (okCopies node sched) = okCopies node sched.
Proof.
  induction sched as [|p sched IH]; simpl; [reflexivity|]. now rewrite IH.
Qed.

Lemma failedCopy_okCopies node sched :
  existsb isFailedCopy (okCopies node sched) = false.
Proof. induction sched as [|p sched IH]; simpl; assumption || reflexivity. Qed.

Lemma In_okCopies node sched src dst file err :
  In (Copy src dst file err) (okCopies node sched) -> err = None.
Proof.
  unfold okCopies. rewrite in_map_iff. intros [p [E _]]. congruence.
Qed.

Lemma copySchedule_length others :
  List.length (copySchedule others) = List.length others * 9.
Proof.
  unfold copySchedule.
  induction others as [|other others IH]; [reflexivity|].
  cbn [flat_map]. rewrite length_app, IH. reflexivity.
Qed.

Lemma firstn_snoc {A} (l : list A) k x :
  nth_error l k = Some x -> firstn (S k) l = firstn k l ++ [x].
Proof.
  revert k. induction l as [|a l IH]; intros [|k] H; try discriminate.
  - simpl in H. injection H as ->. reflexivity.
  - simpl in H. change (a :: firstn (S k) l = a :: firstn k l ++ [x]).
    now rewrite (IH k H).
Qed.

Lemma firstn_length_nth {A} (l : list A) k x :
  nth_error l k = Some x -> List.length (firstn k l) = k.
Proof.
  intros H. apply firstn_length_le.
  apply Nat.lt_le_incl. apply nth_error_Some. congruence.
Qed.

Lemma okCopies_length node sched :
  List.length (okCopies node sched) = List.length sched.
Proof. apply length_map. Qed.

Lemma okCopies_not_failed node sched e :
  In e (okCopies node sched) -> isFailedCopy e = false.
Proof.
  unfold okCopies. rewrite in_map_iff. intros [p [<- _]]. reflexivity.
Qed.

(** In a run of successful copies closed by one more event, only that last
    event can be a failed copy. *)
Lemma failed_copy_is_last node sched ev k e :
  nth_error (okCopies node sched ++ [ev]) k = Some e ->
  isFailedCopy e = true ->
  k = List.length sched /\ e = ev.
Proof.
  intros Hk Hf.
  destruct (Nat.lt_ge_cases k (List.length (okCopies node sched))) as [Hlt|Hge].
  - rewrite nth_error_app1 in Hk by assumption.
    apply nth_error_In, okCopies_not_failed in Hk. congruence.
  - rewrite nth_error_app2 in Hk by assumption.
    rewrite okCopies_length in *.
    destruct (k - List.length sched) as [|d] eqn:Hd.
    + simpl in Hk. injection Hk as <-. split; [lia|reflexivity].
    + simpl in Hk. destruct d; discriminate.
Qed.

Lemma earlier_copies_succeeded node sched ev k j e :
  k = List.length sched ->
  j < k ->
  nth_error (okCopies node sched ++ [ev]) j = Some e ->
  isFailedCopy e = false.
Proof.
  intros -> Hj He.
  rewrite nth_error_app1 in He by now rewrite okCopies_length.
  now apply nth_error_In, okCopies_not_failed in He.
Qed.

Lemma Node_eqb_refl n : Node_eqb n n = true.
Proof.
  unfold Node_eqb. rewrite String.eqb_refl. now destruct (node_role n).
Qed.

Lemma isRemoveTaint_removeTaint node : isRemoveTaint (removeTaint node) = true.
Proof.
  unfold isRemoveTaint, Cmd_eqb. simpl. now rewrite Node_eqb_refl.
Qed.

Lemma isRemoveTaint_kubeadmInit node : isRemoveTaint (kubeadmInit node) = false.
Proof.
  unfold isRemoveTaint, Cmd_eqb. simpl. now rewrite andb_false_r.
Qed.

Create Rewrite HintDb trace.
#[local] Hint Rewrite copyEvents_app copiesOf_app endsOf_app commandsOf_app copiesOf_okCopies
  endsOf_okCopies commandsOf_okCopies copyEvents_okCopies failedCopy_okCopies
  existsb_app app_nil_r isRemoveTaint_removeTaint isRemoveTaint_kubeadmInit
  : trace.

(** Takes the run from [w] apart into the paths it can follow. *)
Ltac paths host nodeutils w :=
  let P := fresh "P" in
  pose proof (Execute_path host nodeutils w) as P;
  destruct (Execute host nodeutils w) as [[?r ?t] ?w'];
  unfold resultOf, traceOf in *; simpl fst in *; simpl snd in *;
  inversion P; subst; clear P.

(** Discards the paths that disagree with what the collaborators answered. *)
Ltac same_answers :=
  repeat match goal with
  | H1 : ?x = _, H2 : ?x = _ |- _ =>
      rewrite H1 in H2; inversion H2; subst; clear H2
  end.

(** ** The claims *)

Section Claims.

Variable W : Type.
Variable host : Host W.
Variable nodeutils : NodeUtils.

(** C1, amended.  If the init command succeeds, the NodeSet has N secondary
    control-plane nodes and no copy fails, then exactly N * 9 copy operations
    are performed, all from the bootstrap node: for each secondary in turn,
    the nine files of the fixed list in their declared order (admin.conf;
    ca.crt, ca.key; front-proxy-ca.crt, front-proxy-ca.key; sa.pub, sa.key;
    etcd/ca.crt, etcd/ca.key). *)
Theorem copies_cover_schedule w allNodes w1 node lines w2 others :
  host_nodes host w = (Ok allNodes, w1) ->
  BootstrapControlPlaneNode nodeutils allNodes = Ok node ->
  host_run host (kubeadmInit node) w1 = (lines, None, w2) ->
  SecondaryControlPlaneNodes nodeutils allNodes = Ok others ->
  noCopyFailed (traceOf (Execute host nodeutils w)) = true ->
  List.length (copiesOf (traceOf (Execute host nodeutils w)))
    = List.length others * 9
  /\ copiesOf (traceOf (Execute host nodeutils w))
    = flat_map (fun other =>
        [ (other, "/etc/kubernetes/admin.conf");
          (other, "/etc/kubernetes/pki/ca.crt");
          (other, "/etc/kubernetes/pki/ca.key");
          (other, "/etc/kubernetes/pki/front-proxy-ca.crt");
          (other, "/etc/kubernetes/pki/front-proxy-ca.key");
          (other, "/etc/kubernetes/pki/sa.pub");
          (other, "/etc/kubernetes/pki/sa.key");
          (other, "/etc/kubernetes/pki/etcd/ca.crt");
          (other, "/etc/kubernetes/pki/etcd/ca.key") ]) others
  /\ copyEvents (traceOf (Execute host nodeutils w))
    = okCopies node (copySchedule others).
Proof.
  intros Hn Hb Hi Hs Hok.
  change (flat_map _ others) with (copySchedule others).
  rewrite <- (copySchedule_length others).
  paths host nodeutils w; same_answers; try discriminate.
  1: { (* a copy failed *)
    exfalso.
    match goal with H : CopyOutcome _ _ (Err _) _ |- _ => inversion H; subst end.
    unfold noCopyFailed in Hok. simpl in Hok.
    autorewrite with trace in Hok. simpl in Hok.
    discriminate Hok. }
  all: simpl; autorewrite with trace; simpl; auto.
Qed.

(** The fail-fast half of a copy failure, on any host: if the k-th copy
    operation of a run fails (counting from zero, in the order of the nested
    loop), the run returns the error of that copy under the wrapper of line
    96, every earlier copy has succeeded, the failed copy is the last one
    attempted, and the copies attempted are the first k+1 entries of the
    fixed order. *)
Lemma copy_failure_aborts w k src dst file cause :
  nth_error (copyEvents (traceOf (Execute host nodeutils w))) k
    = Some (Copy src dst file (Some cause)) ->
  resultOf (Execute host nodeutils w)
    = Err (Wrap cause "failed to copy admin kubeconfig")
  /\ List.length (copyEvents (traceOf (Execute host nodeutils w))) = S k
  /\ (forall j e,
        j < k ->
        nth_error (copyEvents (traceOf (Execute host nodeutils w))) j = Some e ->
        isFailedCopy e = false)
  /\ (forall allNodes w1 others,
        host_nodes host w = (Ok allNodes, w1) ->
        SecondaryControlPlaneNodes nodeutils allNodes = Ok others ->
        nth_error (copySchedule others) k = Some (dst, file)
        /\ copiesOf (traceOf (Execute host nodeutils w))
           = firstn (S k) (copySchedule others)).
Proof.
  paths host nodeutils w; simpl; autorewrite with trace; simpl;
    intros Hk;
    try (destruct k; discriminate Hk);
    try (apply nth_error_In, In_okCopies in Hk; discriminate Hk).
  match goal with H : CopyOutcome _ _ (Err _) _ |- _ => inversion H; subst end.
  autorewrite with trace in *. simpl in *.
  match goal with H : nth_error (copySchedule _) _ = Some _ |- _ =>
    pose proof (firstn_length_nth _ _ H) as Hlen;
    pose proof (firstn_snoc _ _ H) as Hsnoc
  end.
  destruct (failed_copy_is_last _ _ _ _ Hk eq_refl) as [-> Heq].
  injection Heq as <- <- <- <-.
  rewrite Hlen in *.
  repeat split.
  - rewrite length_app, okCopies_length, Hlen. simpl. lia.
  - intros j e Hj He.
    eapply earlier_copies_succeeded; [symmetry; exact Hlen|exact Hj|exact He].
  - same_answers. assumption.
  - same_answers. symmetry. exact Hsnoc.
Qed.

(** C10.  Whichever copy fails, for any secondary node and any file of the
    list, the run returns that copy's error wrapped in the one fixed message
    "failed to copy admin kubeconfig". *)
Theorem copy_failure_message w src dst file cause :
  In (Copy src dst file (Some cause)) (traceOf (Execute host nodeutils w)) ->
  resultOf (Execute host nodeutils w)
    = Err (Wrap cause "failed to copy admin kubeconfig").
Proof.
  paths host nodeutils w; intros Hin;
    repeat match goal with
    | H : In _ (_ :: _) |- _ => destruct H as [H|H]; [try discriminate H|]
    | H : In _ (_ ++ _) |- _ => apply in_app_or in H; destruct H as [H|H]
    | H : In _ (okCopies _ _) |- _ => apply In_okCopies in H; discriminate H
    | H : In _ [] |- _ => destruct H
    end.
  match goal with H : CopyOutcome _ _ (Err _) _ |- _ => inversion H; subst end.
  apply in_app_or in Hin. destruct Hin as [Hin|[Hin|[]]].
  - apply In_okCopies in Hin. discriminate Hin.
  - injection Hin as <- <- <- <-. reflexivity.
Qed.

(** C4.  If the init command on the bootstrap node fails, the run returns
    the command runner's error wrapped as InitFailed ("failed to init node
    with kubeadm") and no copy operation is attempted. *)
Theorem init_failure_aborts w allNodes w1 node lines e w2 :
  host_nodes host w = (Ok allNodes, w1) ->
  BootstrapControlPlaneNode nodeutils allNodes = Ok node ->
  host_run host (kubeadmInit node) w1 = (lines, Some e, w2) ->
  resultOf (Execute host nodeutils w)
    = Err (Wrap e "failed to init node with kubeadm")
  /\ resultOf (Execute host nodeutils w) = Err (InitFailed e)
  /\ copyEvents (traceOf (Execute host nodeutils w)) = []
  /\ copiesOf (traceOf (Execute host nodeutils w)) = [].
Proof.
  intros Hn Hb Hi.
  paths host nodeutils w; same_answers; try discriminate.
  repeat split.
Qed.

(** C5, amended.  The taint-removal command is invoked only if the NodeSet
    has exactly one node: for a NodeSet of two or more nodes it is never
    invoked, whatever init and propagation do.  On a run that reaches the
    post-adjusting step (bootstrap selection, the init command and every
    copy succeed) it is invoked if and only if the node count is exactly 1. *)
Theorem taint_removal_gate w allNodes w1 :
  host_nodes host w = (Ok allNodes, w1) ->
  (taintInvoked (traceOf (Execute host nodeutils w)) = true ->
   List.length allNodes = 1)
  /\ (2 <= List.length allNodes ->
      taintInvoked (traceOf (Execute host nodeutils w)) = false)
  /\ (forall node lines w2 others,
        BootstrapControlPlaneNode nodeutils allNodes = Ok node ->
        host_run host (kubeadmInit node) w1 = (lines, None, w2) ->
        SecondaryControlPlaneNodes nodeutils allNodes = Ok others ->
        noCopyFailed (traceOf (Execute host nodeutils w)) = true ->
        (taintInvoked (traceOf (Execute host nodeutils w)) = true
         <-> List.length allNodes = 1)).
Proof.
  intros Hn.
  paths host nodeutils w; same_answers;
    try match goal with H : CopyOutcome _ _ (Err _) _ |- _ =>
      inversion H; subst end;
    unfold taintInvoked, noCopyFailed; simpl;
    autorewrite with trace; simpl; autorewrite with trace; simpl;
    (split; [|split]);
    try (intros; discriminate); try (intros; reflexivity);
    try (intros; lia);
    intros; same_answers; try discriminate;
    split; intros; try assumption; try reflexivity; congruence.
Qed.

(** C6.  The init command always carries the same fixed arguments, whatever
    the NodeSet: every kubeadm command of a run has exactly the arguments
    init, --skip-phases=preflight, --config=/kind/kubeadm.conf,
    --skip-token-print and --v=6, and whenever a bootstrap node is selected
    the first command of the run is this one, on the bootstrap node. *)
Theorem init_command_fixed w :
  (forall c,
     In c (commandsOf (traceOf (Execute host nodeutils w))) ->
     cmd_name c = "kubeadm" ->
     cmd_args c =
       [ "init"; "--skip-phases=preflight"; "--config=/kind/kubeadm.conf";
         "--skip-token-print"; "--v=6" ])
  /\ (forall allNodes w1 node,
        host_nodes host w = (Ok allNodes, w1) ->
        BootstrapControlPlaneNode nodeutils allNodes = Ok node ->
        hd_error (commandsOf (traceOf (Execute host nodeutils w)))
          = Some (mkCmd node "kubeadm"
                    [ "init"; "--skip-phases=preflight";
                      "--config=/kind/kubeadm.conf";
                      "--skip-token-print"; "--v=6" ])).
Proof.
  paths host nodeutils w;
    try match goal with H : CopyOutcome _ _ (Err _) _ |- _ =>
      inversion H; subst end;
    simpl; autorewrite with trace; simpl;
    (split;
     [ intros c Hin Hname;
       repeat match goal with
       | H : _ \/ _ |- _ => destruct H as [H|H]
       | H : False |- _ => destruct H
       end; subst c; try reflexivity; discriminate Hname
     | intros; same_answers; reflexivity ]).
Qed.

(** C7, amended.  Every run starts with the status start notification and
    ends with the deferred exit notification end(false).  On every failing
    run the exit notification is invoked exactly once, with false.  On a
    successful run it is invoked twice: end(true) explicitly, then the
    deferred end(false). *)
Theorem status_notifications w :
  hd_error (traceOf (Execute host nodeutils w)) = Some (StatusStart startMessage)
  /\ last (traceOf (Execute host nodeutils w)) (StatusStart startMessage)
     = StatusEnd false
  /\ endsOf (traceOf (Execute host nodeutils w))
     = match resultOf (Execute host nodeutils w) with
       | Ok _ => [true; false]
       | Err _ => [false]
       end.
Proof.
  paths host nodeutils w;
    try match goal with H : CopyOutcome _ _ (Err _) _ |- _ =>
      inversion H; subst end;
    (split; [reflexivity|split]);
    try reflexivity;
    try (simpl endsOf; autorewrite with trace; reflexivity);
    repeat rewrite app_comm_cons;
    rewrite ?app_assoc;
    repeat match goal with
    | |- last (?l ++ [?a; ?b; ?c]) _ = _ =>
        change (l ++ [a; b; c]) with (l ++ [a; b] ++ [c]); rewrite (app_assoc l)
    | |- last (?l ++ [?a; ?b]) _ = _ =>
        change (l ++ [a; b]) with (l ++ [a] ++ [b]); rewrite (app_assoc l)
    end;
    apply last_last.
Qed.

(** C9.  On every run that issues the init command, whether the command
    succeeds or fails, its captured output lines, joined by newlines, are
    logged at verbosity 3 right after the command and before anything that
    depends on its outcome. *)
Theorem init_output_logged w allNodes w1 node lines err w2 :
  host_nodes host w = (Ok allNodes, w1) ->
  BootstrapControlPlaneNode nodeutils allNodes = Ok node ->
  host_run host (kubeadmInit node) w1 = (lines, err, w2) ->
  exists rest,
    traceOf (Execute host nodeutils w)
    = StatusStart startMessage
      :: Exec (kubeadmInit node) lines err
      :: LogInfo 3 (String.concat newline lines)
      :: rest.
Proof.
  intros Hn Hb Hi.
  paths host nodeutils w; same_answers; try discriminate;
    eexists; reflexivity.
Qed.

End Claims.

(** ** The node selector of the specification *)

Lemma isControlPlane_role n : isControlPlane n = true <-> node_role n = ControlPlane.
Proof.
  unfold isControlPlane. destruct (node_role n); simpl; split; congruence.
Qed.

Lemma controlPlaneNodes_In allNodes n :
  In n (controlPlaneNodes allNodes) <-> In n allNodes /\ node_role n = ControlPlane.
Proof.
  unfold controlPlaneNodes. rewrite filter_In. now rewrite isControlPlane_role.
Qed.

Lemma controlPlaneNodes_none allNodes :
  (forall n, In n allNodes -> node_role n <> ControlPlane) ->
  controlPlaneNodes allNodes = [].
Proof.
  intros H.
  destruct (controlPlaneNodes allNodes) as [|n rest] eqn:E; [reflexivity|].
  assert (Hin : In n (controlPlaneNodes allNodes)) by (rewrite E; now left).
  apply controlPlaneNodes_In in Hin. destruct Hin as [Hin Hrole].
  now elim (H n Hin).
Qed.

(** C3.  For a NodeSet without any control-plane node, the run fails with
    NoControlPlaneNode and issues no command against any node: no init
    command, no copy and no taint removal; the status notifications are its
    only events. *)
Theorem no_control_plane_aborts (W : Type) (host : Host W) w allNodes w1 :
  host_nodes host w = (Ok allNodes, w1) ->
  (forall n, In n allNodes -> node_role n <> ControlPlane) ->
  resultOf (Execute host specNodeUtils w) = Err NoControlPlaneNode
  /\ filter isNodeOperation (traceOf (Execute host specNodeUtils w)) = []
  /\ commandsOf (traceOf (Execute host specNodeUtils w)) = []
  /\ copiesOf (traceOf (Execute host specNodeUtils w)) = []
  /\ taintInvoked (traceOf (Execute host specNodeUtils w)) = false.
Proof.
  intros Hn Hnone.
  apply controlPlaneNodes_none in Hnone.
  assert (Hb : BootstrapControlPlaneNode specNodeUtils allNodes
               = Err NoControlPlaneNode).
  { simpl. unfold specBootstrap. now rewrite Hnone. }
  paths host specNodeUtils w; same_answers; try discriminate.
  repeat split.
Qed.


(** ** The claims on concrete runs *)

(** Two control-plane secondaries and a worker: eighteen copies. *)
Lemma copies_cover_schedule_witness :
  noCopyFailed (traceOf (runOn (happy [nodeA; nodeB; nodeC; nodeD]))) = true
  /\ List.length (copiesOf (traceOf (runOn (happy [nodeA; nodeB; nodeC; nodeD]))))
     = 2 * 9.
Proof.
  split; [reflexivity|].
  apply (@copies_cover_schedule nat (scripted (happy [nodeA; nodeB; nodeC; nodeD]))
           specNodeUtils 0 [nodeA; nodeB; nodeC; nodeD] 0 nodeA
           ["[init] done"] 0 [nodeB; nodeD]);
    reflexivity.
Defined.

(** C1 as stated fails: with one secondary, init and all copies succeeding,
    nine copies are performed, not eight. *)
Lemma copies_are_not_eight_per_node :
  resultOf (runOn (happy [nodeA; nodeB; nodeC])) = Ok tt
  /\ specSecondaries [nodeA; nodeB; nodeC] = Ok [nodeB]
  /\ List.length (copiesOf (traceOf (runOn (happy [nodeA; nodeB; nodeC])))) = 9
  /\ List.length (copiesOf (traceOf (runOn (happy [nodeA; nodeB; nodeC]))))
     <> List.length [nodeB] * 8.
Proof.
  repeat split; try reflexivity. vm_compute. discriminate.
Qed.

Lemma copy_failure_message_witness :
  In (Copy nodeA nodeB "/etc/kubernetes/pki/sa.key" (Some (Errorf "exit status 1")))
     (traceOf (runOn (copyFailsAt [nodeA; nodeB; nodeD] 6)))
  /\ resultOf (runOn (copyFailsAt [nodeA; nodeB; nodeD] 6))
     = Err (Wrap (Errorf "exit status 1") "failed to copy admin kubeconfig").
Proof.
  assert (Hin : In (Copy nodeA nodeB "/etc/kubernetes/pki/sa.key"
                      (Some (Errorf "exit status 1")))
                   (traceOf (runOn (copyFailsAt [nodeA; nodeB; nodeD] 6)))).
  { simpl. repeat (try (left; reflexivity); right). }
  split; [exact Hin|].
  exact (@copy_failure_message nat
           (scripted (copyFailsAt [nodeA; nodeB; nodeD] 6)) specNodeUtils 0
           nodeA nodeB "/etc/kubernetes/pki/sa.key" (Errorf "exit status 1") Hin).
Defined.

Lemma init_failure_aborts_witness :
  resultOf (runOn (initFails [nodeA; nodeB; nodeC]))
    = Err (Wrap (Errorf "exit status 1") "failed to init node with kubeadm")
  /\ copiesOf (traceOf (runOn (initFails [nodeA; nodeB; nodeC]))) = [].
Proof.
  destruct (@init_failure_aborts nat (scripted (initFails [nodeA; nodeB; nodeC]))
              specNodeUtils 0 [nodeA; nodeB; nodeC] 0 nodeA
              ["[init] preflight"; "[init] failed"] (Errorf "exit status 1") 0
              eq_refl eq_refl eq_refl) as (Hr & _ & _ & Hc).
  split; [exact Hr|exact Hc].
Defined.

(** A single control-plane node: the taint is removed. *)
Lemma taint_removal_gate_witness :
  taintInvoked (traceOf (runOn (happy [nodeA]))) = true
  <-> List.length [nodeA] = 1.
Proof.
  destruct (@taint_removal_gate nat (scripted (happy [nodeA])) specNodeUtils 0
              [nodeA] 0 eq_refl) as (_ & _ & H).
  apply (H nodeA ["[init] done"] 0 []); reflexivity.
Defined.

(** C5 as stated fails: on a single-node NodeSet whose init command fails,
    the node count is 1 and the taint removal is not invoked. *)
Lemma taint_not_removed_when_init_fails :
  List.length [nodeA] = 1
  /\ taintInvoked (traceOf (runOn (initFails [nodeA]))) = false
  /\ ~ (taintInvoked (traceOf (runOn (initFails [nodeA]))) = true
        <-> List.length [nodeA] = 1).
Proof.
  split; [reflexivity|]. split; [reflexivity|].
  intros [_ H]. specialize (H eq_refl). vm_compute in H. discriminate H.
Qed.

Lemma init_command_fixed_witness :
  cmd_args (kubeadmInit nodeA)
    = [ "init"; "--skip-phases=preflight"; "--config=/kind/kubeadm.conf";
        "--skip-token-print"; "--v=6" ]
  /\ hd_error (commandsOf (traceOf (runOn (happy [nodeA; nodeB; nodeC]))))
     = Some (mkCmd nodeA "kubeadm"
               [ "init"; "--skip-phases=preflight"; "--config=/kind/kubeadm.conf";
                 "--skip-token-print"; "--v=6" ]).
Proof.
  destruct (@init_command_fixed nat (scripted (happy [nodeA; nodeB; nodeC]))
              specNodeUtils 0) as [Hargs Hfirst].
  split.
  - apply (Hargs (kubeadmInit nodeA)); [left; reflexivity|reflexivity].
  - apply (Hfirst [nodeA; nodeB; nodeC] 0 nodeA); reflexivity.
Defined.

(** C7 as stated fails: on a successful run the exit notification is
    invoked twice, end(true) and then the deferred end(false). *)
Lemma status_end_invoked_twice_on_success :
  resultOf (runOn (happy [nodeA])) = Ok tt
  /\ endsOf (traceOf (runOn (happy [nodeA]))) = [true; false]
  /\ List.length (endsOf (traceOf (runOn (happy [nodeA])))) <> 1.
Proof.
  repeat split. vm_compute. discriminate.
Qed.

(** The output of a failing init command is logged all the same. *)
Lemma init_output_logged_witness :
  exists rest,
    traceOf (runOn (initFails [nodeA; nodeB]))
    = StatusStart startMessage
      :: Exec (kubeadmInit nodeA) ["[init] preflight"; "[init] failed"]
           (Some (Errorf "exit status 1"))
      :: LogInfo 3 (String.concat newline ["[init] preflight"; "[init] failed"])
      :: rest.
Proof.
  apply (@init_output_logged nat (scripted (initFails [nodeA; nodeB]))
           specNodeUtils 0 [nodeA; nodeB] 0 nodeA
           ["[init] preflight"; "[init] failed"] (Some (Errorf "exit status 1")) 0);
    reflexivity.
Defined.

(** A NodeSet of one worker. *)
Lemma no_control_plane_aborts_witness :
  resultOf (runOn (happy [nodeC])) = Err NoControlPlaneNode
  /\ filter isNodeOperation (traceOf (runOn (happy [nodeC]))) = [].
Proof.
  destruct (@no_control_plane_aborts nat (scripted (happy [nodeC])) 0 [nodeC] 0
              eq_refl) as (Hr & Hf & _).
  - intros n [<-|[]]. discriminate.
  - split; [exact Hr|exact Hf].
Defined.

(** ** The two end-to-end scenarios of the specification *)

(** A and B control-plane, C worker: A is the bootstrap node, init runs once
    on A, every file of the list is copied from A to B in order, and the
    taint removal is skipped. *)
Example scenario_three_nodes :
  specBootstrap [nodeA; nodeB; nodeC] = Ok nodeA
  /\ specSecondaries [nodeA; nodeB; nodeC] = Ok [nodeB]
  /\ resultOf (runOn (happy [nodeA; nodeB; nodeC])) = Ok tt
  /\ commandsOf (traceOf (runOn (happy [nodeA; nodeB; nodeC]))) = [kubeadmInit nodeA]
  /\ copyEvents (traceOf (runOn (happy [nodeA; nodeB; nodeC])))
     = map (fun file => Copy nodeA nodeB file None) artifactFiles
  /\ taintInvoked (traceOf (runOn (happy [nodeA; nodeB; nodeC]))) = false.
Proof. repeat split. Qed.

(** A alone: init runs once on A, nothing is copied, and the taint removal
    runs once on A. *)
Example scenario_single_node :
  specBootstrap [nodeA] = Ok nodeA
  /\ specSecondaries [nodeA] = Ok []
  /\ resultOf (runOn (happy [nodeA])) = Ok tt
  /\ commandsOf (traceOf (runOn (happy [nodeA])))
     = [kubeadmInit nodeA; removeTaint nodeA]
  /\ copyEvents (traceOf (runOn (happy [nodeA]))) = [].
Proof. repeat split. Qed.

(** * Further properties of [Execute] *)

Lemma logsOf_app t1 t2 : logsOf (t1 ++ t2) = logsOf t1 ++ logsOf t2.
Proof.
  induction t1 as [|e t1 IH]; [reflexivity|].
  destruct e; simpl; now rewrite ?IH.
Qed.

Lemma logsOf_okCopies node sched : logsOf (okCopies node sched) = [].
Proof. induction sched as [|p sched IH]; simpl; assumption || reflexivity. Qed.

Lemma failedOps_okCopies node sched : filter isFailedOp (okCopies node sched) = [].
Proof. induction sched as [|p sched IH]; simpl; assumption || reflexivity. Qed.

Lemma nodeOps_okCopies node sched :
  filter isNodeOperation (okCopies node sched) = okCopies node sched.
Proof.
  induction sched as [|p sched IH]; simpl; [reflexivity|]. now rewrite IH.
Qed.

Lemma In_copiesOf src dst file err t :
  In (Copy src dst file err) t -> In (dst, file) (copiesOf t).
Proof.
  induction t as [|e t IH]; intros Hin; [destruct Hin|].
  destruct Hin as [->|Hin]; [now left|].
  destruct e; simpl; auto.
Qed.

Lemma In_copySchedule others dst file :
  In (dst, file) (copySchedule others) <-> In dst others /\ In file artifactFiles.
Proof.
  unfold copySchedule. rewrite in_flat_map. split.
  - intros [other [Ho Hin]]. apply in_map_iff in Hin.
    destruct Hin as [f [E Hf]]. injection E as <- <-. now split.
  - intros [Hd Hf]. exists dst. split; [assumption|].
    apply in_map_iff. now exists file.
Qed.

Lemma In_firstn {A} (l : list A) k x : In x (firstn k l) -> In x l.
Proof.
  intros H. rewrite <- (firstn_skipn k l). apply in_or_app. now left.
Qed.

#[local] Hint Rewrite logsOf_app logsOf_okCopies filter_app failedOps_okCopies
  nodeOps_okCopies : trace.

(** Opens the copy loop of a path on which a copy failed. *)
Ltac failed_copy :=
  try match goal with H : CopyOutcome _ _ (Err _) _ |- _ =>
    inversion H; subst; clear H end.

Lemma In_okCopies_inv node sched ev :
  In ev (okCopies node sched) ->
  exists dst file, Copy node dst file None = ev /\ In (dst, file) sched.
Proof.
  unfold okCopies. rewrite in_map_iff. intros [[dst file] [E Hin]].
  now exists dst, file.
Qed.

(** Looks for an event through the trace of a path. *)
Ltac find_event :=
  repeat match goal with
  | H : In _ (_ :: _) |- _ => destruct H as [H|H]; [try discriminate H|]
  | H : In _ (_ ++ _) |- _ => apply in_app_or in H; destruct H as [H|H]
  | H : In _ [] |- _ => destruct H
  | H : In _ (okCopies _ _) |- _ =>
      apply In_okCopies_inv in H; destruct H as (? & ? & H & ?);
      try discriminate H
  end;
  repeat match goal with
  | H : Exec _ _ _ = Exec _ _ _ |- _ => inversion H; subst; clear H
  | H : Copy _ _ _ _ = Copy _ _ _ _ |- _ => inversion H; subst; clear H
  end.

Section Further.

Variable W : Type.
Variable host : Host W.
Variable nodeutils : NodeUtils.

(** When [ctx.Nodes()] fails, its error is returned as it is, and the run
    consists of the status start and the deferred end(false) only: no
    selection, no command, no log entry and no copy. *)
Theorem nodes_failure_returned w e w1 :
  host_nodes host w = (Err e, w1) ->
  resultOf (Execute host nodeutils w) = Err e
  /\ traceOf (Execute host nodeutils w)
     = [StatusStart startMessage; StatusEnd false].
Proof.
  intros Hn. paths host nodeutils w; same_answers. now split.
Qed.

(** When the secondaries cannot be listed after a successful init, the
    selector's error is returned without any wrapping; the init command has
    run and its output has been logged, and neither a copy nor the taint
    removal is attempted. *)
Theorem secondaries_failure_returned w allNodes w1 node lines w2 e :
  host_nodes host w = (Ok allNodes, w1) ->
  BootstrapControlPlaneNode nodeutils allNodes = Ok node ->
  host_run host (kubeadmInit node) w1 = (lines, None, w2) ->
  SecondaryControlPlaneNodes nodeutils allNodes = Err e ->
  resultOf (Execute host nodeutils w) = Err e
  /\ traceOf (Execute host nodeutils w)
     = [ StatusStart startMessage;
         Exec (kubeadmInit node) lines None;
         LogInfo 3 (strings_Join lines newline);
         StatusEnd false ].
Proof.
  intros Hn Hb Hi Hs.
  paths host nodeutils w; same_answers; try discriminate. now split.
Qed.

(** When the taint removal fails, the run returns the command's error
    wrapped in "failed to remove master taint" and never reports success:
    the only exit notification is the deferred end(false).  The NodeSet has
    exactly one node. *)
Theorem taint_failure_wrapped w c tlines e :
  In (Exec c tlines (Some e)) (traceOf (Execute host nodeutils w)) ->
  isRemoveTaint c = true ->
  resultOf (Execute host nodeutils w)
    = Err (Wrap e "failed to remove master taint")
  /\ endsOf (traceOf (Execute host nodeutils w)) = [false]
  /\ (forall allNodes w1,
        host_nodes host w = (Ok allNodes, w1) -> List.length allNodes = 1).
Proof.
  paths host nodeutils w; failed_copy; intros Hin Ht; find_event;
    try (rewrite isRemoveTaint_kubeadmInit in Ht; discriminate Ht).
  repeat split.
  - simpl. now autorewrite with trace.
  - intros; same_answers. assumption.
Qed.

(** A run returns nil only if no command and no copy failed; and when the
    nodes are listed and both selections succeed, it returns nil as soon as
    no command and no copy failed. *)
Theorem success_iff_no_failure w allNodes w1 node others :
  host_nodes host w = (Ok allNodes, w1) ->
  BootstrapControlPlaneNode nodeutils allNodes = Ok node ->
  SecondaryControlPlaneNodes nodeutils allNodes = Ok others ->
  (resultOf (Execute host nodeutils w) = Ok tt
   <-> filter isFailedOp (traceOf (Execute host nodeutils w)) = []).
Proof.
  intros Hn Hb Hs.
  paths host nodeutils w; failed_copy; same_answers; try discriminate;
    simpl; autorewrite with trace; simpl;
    split; intros H; try reflexivity; try discriminate H.
  all: apply app_eq_nil in H; destruct H as [_ H]; discriminate H.
Qed.

(** Fail fast: in any run at most one command or copy fails, it is the last
    operation issued against a node, and the run returns an error. *)
Theorem at_most_one_failure w :
  filter isFailedOp (traceOf (Execute host nodeutils w)) = []
  \/ exists ev before,
       filter isFailedOp (traceOf (Execute host nodeutils w)) = [ev]
       /\ filter isNodeOperation (traceOf (Execute host nodeutils w))
          = before ++ [ev]
       /\ filter isFailedOp before = []
       /\ exists e, resultOf (Execute host nodeutils w) = Err e.
Proof.
  paths host nodeutils w; failed_copy;
    simpl; autorewrite with trace; simpl;
    try (left; reflexivity); right.
  - eexists; exists []. repeat split. eexists; reflexivity.
  - eexists; eexists (Exec _ _ None :: okCopies _ _).
    repeat split; [simpl; now autorewrite with trace | eexists; reflexivity].
  - eexists; eexists (Exec _ _ None :: okCopies _ _).
    repeat split; [simpl; now autorewrite with trace | eexists; reflexivity].
Qed.

(** No copy without a successful init: whenever a copy is attempted, the
    first operation of the run is the init command on the source node of
    that copy, and it succeeded. *)
Theorem copies_follow_successful_init w src dst file err :
  In (Copy src dst file err) (traceOf (Execute host nodeutils w)) ->
  exists lines rest,
    filter isNodeOperation (traceOf (Execute host nodeutils w))
    = Exec (kubeadmInit src) lines None :: rest.
Proof.
  paths host nodeutils w; failed_copy; intros Hin; find_event;
    simpl; eexists; eexists; reflexivity.
Qed.

(** The taint removal comes last: whenever it is issued, the init command
    has succeeded and every copy of the schedule has been made, successfully,
    before it. *)
Theorem taint_follows_full_propagation w c tlines err :
  In (Exec c tlines err) (traceOf (Execute host nodeutils w)) ->
  isRemoveTaint c = true ->
  exists allNodes w1 others lines,
    host_nodes host w = (Ok allNodes, w1)
    /\ SecondaryControlPlaneNodes nodeutils allNodes = Ok others
    /\ c = removeTaint (cmd_node c)
    /\ filter isNodeOperation (traceOf (Execute host nodeutils w))
       = Exec (kubeadmInit (cmd_node c)) lines None
         :: okCopies (cmd_node c) (copySchedule others)
         ++ [Exec c tlines err].
Proof.
  paths host nodeutils w; failed_copy; intros Hin Ht; find_event;
    try (rewrite isRemoveTaint_kubeadmInit in Ht; discriminate Ht);
    do 4 eexists; (split; [eassumption|]); (split; [eassumption|]);
    (split; [reflexivity|]);
    simpl; autorewrite with trace; reflexivity.
Qed.

(** The commands of a run: none when no bootstrap node is found; otherwise
    the init command on the bootstrap node, followed at most by the taint
    removal on the same node, and then only for a one-node NodeSet.  No
    command ever runs on another node. *)
Theorem commands_of_a_run w allNodes w1 :
  host_nodes host w = (Ok allNodes, w1) ->
  match BootstrapControlPlaneNode nodeutils allNodes with
  | Err _ => commandsOf (traceOf (Execute host nodeutils w)) = []
  | Ok node =>
      commandsOf (traceOf (Execute host nodeutils w)) = [kubeadmInit node]
      \/ (List.length allNodes = 1
          /\ commandsOf (traceOf (Execute host nodeutils w))
             = [ kubeadmInit node;
                 mkCmd node "kubectl"
                   [ "--kubeconfig=/etc/kubernetes/admin.conf";
                     "taint"; "nodes"; "--all";
                     "node-role.kubernetes.io/master-" ] ])
  end.
Proof.
  intros Hn.
  paths host nodeutils w; failed_copy; same_answers;
    match goal with H : BootstrapControlPlaneNode _ _ = _ |- _ => rewrite H end;
    simpl; autorewrite with trace; simpl;
    try reflexivity; try (left; reflexivity);
    right; split; (assumption || reflexivity).
Qed.

Lemma copies_prefix_of_schedule w allNodes w1 others :
  host_nodes host w = (Ok allNodes, w1) ->
  SecondaryControlPlaneNodes nodeutils allNodes = Ok others ->
  exists k,
    k <= List.length (copySchedule others)
    /\ copiesOf (traceOf (Execute host nodeutils w))
       = firstn k (copySchedule others).
Proof.
  intros Hn Hs.
  paths host nodeutils w; failed_copy; same_answers;
    simpl; autorewrite with trace; simpl;
    try (exists 0; split; [apply Nat.le_0_l|reflexivity]);
    try match goal with H : nth_error (copySchedule _) ?k = Some _ |- _ =>
      exists (S k); split;
      [ apply nth_error_Some; congruence
      | symmetry; apply (firstn_snoc _ _ H) ]
    end;
    match goal with |- exists k, _ /\ ?s = firstn k ?s =>
      exists (List.length s); split;
      [ apply Nat.le_refl | symmetry; apply firstn_all ]
    end.
Qed.

(** Whatever happens, the copies attempted are an initial part of the fixed
    order: at most nine per secondary, each one the copy of a file of the
    fixed list to a secondary control-plane node, and none to any other
    destination. *)
Theorem copies_within_schedule w allNodes w1 others :
  host_nodes host w = (Ok allNodes, w1) ->
  SecondaryControlPlaneNodes nodeutils allNodes = Ok others ->
  List.length (copiesOf (traceOf (Execute host nodeutils w)))
    <= List.length others * 9
  /\ (exists k,
        copiesOf (traceOf (Execute host nodeutils w))
        = firstn k (copySchedule others))
  /\ (forall src dst file err,
        In (Copy src dst file err) (traceOf (Execute host nodeutils w)) ->
        In dst others /\ In file artifactFiles).
Proof.
  intros Hn Hs.
  destruct (copies_prefix_of_schedule w Hn Hs) as (k & Hk & Hpre).
  split; [|split].
  - rewrite Hpre, length_firstn, <- copySchedule_length. apply Nat.le_min_r.
  - now exists k.
  - intros src dst file err Hin.
    apply In_copiesOf in Hin. rewrite Hpre in Hin.
    apply In_firstn in Hin. now apply In_copySchedule.
Qed.

(** A run writes exactly one log entry when it issues the init command, the
    joined output at verbosity 3, and none at all otherwise; failures of
    copies and of the taint removal are never logged. *)
Theorem one_log_entry w allNodes w1 :
  host_nodes host w = (Ok allNodes, w1) ->
  match BootstrapControlPlaneNode nodeutils allNodes with
  | Err _ => logsOf (traceOf (Execute host nodeutils w)) = []
  | Ok node =>
      logsOf (traceOf (Execute host nodeutils w))
      = [(3, String.concat newline (fst (fst (host_run host (kubeadmInit node) w1))))]
  end.
Proof.
  intros Hn.
  paths host nodeutils w; failed_copy; same_answers;
    match goal with H : BootstrapControlPlaneNode _ _ = _ |- _ => rewrite H end;
    try match goal with H : host_run _ _ _ = _ |- _ => rewrite H end;
    simpl; autorewrite with trace; reflexivity.
Qed.

(** Propagating to a list of secondaries in two parts: the second part is
    visited from the world the first part leaves, and only if every copy of
    the first part succeeded; a failure in the first part is the outcome of
    the whole. *)
Theorem copyArtifacts_split node xs ys w :
  copyArtifacts host node (xs ++ ys) w =
  match copyArtifacts host node xs w with
  | (Ok _, t1, w1) =>
      match copyArtifacts host node ys w1 with
      | (r, t2, w2) => (r, t1 ++ t2, w2)
      end
  | (Err e, t1, w1) => (Err e, t1, w1)
  end.
Proof.
  unfold copyArtifacts. rewrite forEach_app. reflexivity.
Qed.

End Further.

(** ** The further properties on concrete runs *)

Lemma nodes_failure_returned_witness :
  resultOf (runOn (nodesFail (Errorf "docker ps failed")))
    = Err (Errorf "docker ps failed")
  /\ traceOf (runOn (nodesFail (Errorf "docker ps failed")))
     = [StatusStart startMessage; StatusEnd false].
Proof.
  apply (@nodes_failure_returned nat
           (scripted (nodesFail (Errorf "docker ps failed"))) specNodeUtils 0
           (Errorf "docker ps failed") 0).
  reflexivity.
Defined.

Lemma secondaries_failure_returned_witness :
  resultOf (Execute (scripted (happy [nodeA; nodeB])) failingSecondaries 0)
    = Err (Errorf "cannot inspect node role")
  /\ traceOf (Execute (scripted (happy [nodeA; nodeB])) failingSecondaries 0)
     = [ StatusStart startMessage;
         Exec (kubeadmInit nodeA) ["[init] done"] None;
         LogInfo 3 (strings_Join ["[init] done"] newline);
         StatusEnd false ].
Proof.
  apply (@secondaries_failure_returned nat (scripted (happy [nodeA; nodeB]))
           failingSecondaries 0 [nodeA; nodeB] 0 nodeA ["[init] done"] 0
           (Errorf "cannot inspect node role"));
    reflexivity.
Defined.

Lemma taint_failure_wrapped_witness :
  resultOf (runOn (taintFails [nodeA]))
    = Err (Wrap (Errorf "exit status 1") "failed to remove master taint")
  /\ endsOf (traceOf (runOn (taintFails [nodeA]))) = [false].
Proof.
  destruct (@taint_failure_wrapped nat (scripted (taintFails [nodeA]))
              specNodeUtils 0 (removeTaint nodeA) [] (Errorf "exit status 1"))
    as (Hr & He & _).
  - simpl. right; right; right; left. reflexivity.
  - reflexivity.
  - split; [exact Hr|exact He].
Defined.

Lemma success_iff_no_failure_witness :
  resultOf (runOn (copyFailsAt [nodeA; nodeB] 3)) = Ok tt
  <-> filter isFailedOp (traceOf (runOn (copyFailsAt [nodeA; nodeB] 3))) = [].
Proof.
  apply (@success_iff_no_failure nat (scripted (copyFailsAt [nodeA; nodeB] 3))
           specNodeUtils 0 [nodeA; nodeB] 0 nodeA [nodeB]);
    reflexivity.
Defined.

Lemma copies_follow_successful_init_witness :
  exists lines rest,
    filter isNodeOperation (traceOf (runOn (copyFailsAt [nodeA; nodeB] 0)))
    = Exec (kubeadmInit nodeA) lines None :: rest.
Proof.
  apply (@copies_follow_successful_init nat
           (scripted (copyFailsAt [nodeA; nodeB] 0)) specNodeUtils 0
           nodeA nodeB "/etc/kubernetes/admin.conf"
           (Some (Errorf "exit status 1"))).
  simpl. right; right; right; left. reflexivity.
Defined.

Lemma taint_follows_full_propagation_witness :
  exists allNodes w1 others lines,
    host_nodes (scripted (happy [nodeA])) 0 = (Ok allNodes, w1)
    /\ SecondaryControlPlaneNodes specNodeUtils allNodes = Ok others
    /\ removeTaint nodeA = removeTaint (cmd_node (removeTaint nodeA))
    /\ filter isNodeOperation (traceOf (runOn (happy [nodeA])))
       = Exec (kubeadmInit (cmd_node (removeTaint nodeA))) lines None
         :: okCopies (cmd_node (removeTaint nodeA)) (copySchedule others)
         ++ [Exec (removeTaint nodeA) [] None].
Proof.
  apply (@taint_follows_full_propagation nat (scripted (happy [nodeA]))
           specNodeUtils 0 (removeTaint nodeA) [] None).
  - simpl. right; right; right; left. reflexivity.
  - reflexivity.
Defined.

Lemma commands_of_a_run_witness :
  commandsOf (traceOf (runOn (happy [nodeA; nodeC]))) = [kubeadmInit nodeA]
  \/ (List.length [nodeA; nodeC] = 1
      /\ commandsOf (traceOf (runOn (happy [nodeA; nodeC])))
         = [ kubeadmInit nodeA;
             mkCmd nodeA "kubectl"
               [ "--kubeconfig=/etc/kubernetes/admin.conf";
                 "taint"; "nodes"; "--all";
                 "node-role.kubernetes.io/master-" ] ]).
Proof.
  apply (@commands_of_a_run nat (scripted (happy [nodeA; nodeC]))
           specNodeUtils 0 [nodeA; nodeC] 0).
  reflexivity.
Defined.

Lemma copies_within_schedule_witness :
  List.length (copiesOf (traceOf (runOn (copyFailsAt [nodeA; nodeB; nodeD] 12))))
    <= List.length [nodeB; nodeD] * 9
  /\ (exists k,
        copiesOf (traceOf (runOn (copyFailsAt [nodeA; nodeB; nodeD] 12)))
        = firstn k (copySchedule [nodeB; nodeD])).
Proof.
  destruct (@copies_within_schedule nat
              (scripted (copyFailsAt [nodeA; nodeB; nodeD] 12)) specNodeUtils 0
              [nodeA; nodeB; nodeD] 0 [nodeB; nodeD] eq_refl eq_refl)
    as (Hlen & Hpre & _).
  split; [exact Hlen|exact Hpre].
Defined.

Lemma one_log_entry_witness :
  logsOf (traceOf (runOn (taintFails [nodeA])))
  = [(3, String.concat newline ["[init] done"])].
Proof.
  apply (@one_log_entry nat (scripted (taintFails [nodeA])) specNodeUtils 0
           [nodeA] 0).
  reflexivity.
Defined.

(** * What the trace records is what the host answered *)

Section Faithful.

Variable W : Type.
Variable host : Host W.

Lemma faithful_ret {A} (a : A) : faithful host (ret a).
Proof. intros w. constructor. Qed.

Lemma faithful_throw {A} (e : error) : faithful host (@throw W A e).
Proof. intros w. constructor. Qed.

Lemma faithful_emit ev : answeredBy host ev -> faithful host (emit ev).
Proof. intros H w. constructor; [exact H|constructor]. Qed.

Lemma faithful_bind {A B} (m : M W A) (f : A -> M W B) :
  faithful host m -> (forall a, faithful host (f a)) -> faithful host (bind m f).
Proof.
  intros Hm Hf w. specialize (Hm w). unfold bind, traceOf in *.
  destruct (m w) as [[[a|e] t1] w1]; simpl in *; [|exact Hm].
  specialize (Hf a w1). unfold traceOf in Hf.
  destruct (f a w1) as [[r t2] w2]; simpl in *.
  apply Forall_app. now split.
Qed.

Lemma faithful_wrapErr {A} (m : M W A) msg :
  faithful host m -> faithful host (wrapErr m msg).
Proof.
  intros Hm w. specialize (Hm w). unfold wrapErr, traceOf in *.
  now destruct (m w) as [[[a|e] t1] w1].
Qed.

Lemma faithful_defer {A B} (d : M W B) (m : M W A) :
  faithful host d -> faithful host m -> faithful host (defer d m).
Proof.
  intros Hd Hm w. specialize (Hm w). unfold defer, traceOf in *.
  destruct (m w) as [[r t1] w1]; simpl in *.
  specialize (Hd w1). unfold traceOf in Hd.
  destruct (d w1) as [[r' t2] w2]; simpl in *.
  apply Forall_app. now split.
Qed.

Lemma faithful_forEach {A} (xs : list A) (body : A -> M W unit) :
  (forall x, faithful host (body x)) -> faithful host (forEach xs body).
Proof.
  intros Hb. induction xs as [|x xs IH]; simpl.
  - apply faithful_ret.
  - apply faithful_bind; [apply Hb|intros _; exact IH].
Qed.

Lemma faithful_ofResult {A} (r : result A) : faithful host (ofResult r).
Proof. destruct r; [apply faithful_ret|apply faithful_throw]. Qed.

Lemma faithful_ofError (err : option error) : faithful host (ofError err).
Proof. destruct err; [apply faithful_throw|apply faithful_ret]. Qed.

Lemma faithful_ctx_Nodes : faithful host (ctx_Nodes host).
Proof.
  intros w. unfold ctx_Nodes, traceOf.
  destruct (host_nodes host w) as [r w1]. constructor.
Qed.

Lemma faithful_CombinedOutputLines cmd : faithful host (CombinedOutputLines host cmd).
Proof.
  intros w. unfold CombinedOutputLines, traceOf.
  destruct (host_run host cmd w) as [[lines err] w1] eqn:E. simpl.
  constructor; [now exists w, w1|constructor].
Qed.

Lemma faithful_Run cmd : faithful host (Run host cmd).
Proof.
  intros w. unfold Run, traceOf.
  destruct (host_run host cmd w) as [[lines err] w1] eqn:E. simpl.
  constructor; [now exists w, w1|constructor].
Qed.

Lemma faithful_CopyNodeToNode src dst file :
  faithful host (CopyNodeToNode host src dst file).
Proof.
  intros w. unfold CopyNodeToNode, traceOf.
  destruct (host_copy host src dst file w) as [err w1] eqn:E. simpl.
  constructor; [now exists w, w1|constructor].
Qed.

Lemma faithful_copyArtifacts node others :
  faithful host (copyArtifacts host node others).
Proof.
  unfold copyArtifacts.
  apply faithful_forEach. intros other.
  apply faithful_forEach. intros file.
  apply faithful_wrapErr, faithful_CopyNodeToNode.
Qed.

Lemma faithful_ExecuteBody nodeutils : faithful host (ExecuteBody host nodeutils).
Proof.
  unfold ExecuteBody.
  apply faithful_bind; [apply faithful_ctx_Nodes|intros allNodes].
  apply faithful_bind; [apply faithful_ofResult|intros node].
  apply faithful_bind; [apply faithful_CombinedOutputLines|intros out].
  apply faithful_bind; [now apply faithful_emit|intros _].
  apply faithful_bind; [apply faithful_wrapErr, faithful_ofError|intros _].
  apply faithful_bind; [apply faithful_ofResult|intros others].
  apply faithful_bind; [apply faithful_copyArtifacts|intros _].
  apply faithful_bind; [|intros _; now apply faithful_emit].
  destruct (Nat.eqb (List.length allNodes) 1).
  - apply faithful_wrapErr, faithful_Run.
  - apply faithful_ret.
Qed.

Lemma faithful_Execute nodeutils : faithful host (Execute host nodeutils).
Proof.
  intros w.
  pose proof (@faithful_defer unit unit (Status_End false)
                (ExecuteBody host nodeutils)
                (faithful_emit (StatusEnd false) I)
                (faithful_ExecuteBody nodeutils) w) as H.
  unfold Execute, Status_Start, emit, traceOf in *.
  destruct (defer (Status_End false) (ExecuteBody host nodeutils) w)
    as [[r t] w1]; simpl in *.
  constructor; [exact I|exact H].
Qed.

Lemma In_copyEvents ev t : In ev (copyEvents t) -> In ev t.
Proof.
  induction t as [|e t IH]; simpl; [tauto|].
  destruct (isCopy e); simpl; intuition.
Qed.

(** C2.  On a host whose copy failures retain the node and the path that
    failed (the contract of the Artifact Propagator): if the k-th copy
    operation of a run fails (counting from zero, in the order of the nested
    loop), the run fails with the PropagationFailed error, the error of that
    copy under the message "failed to copy admin kubeconfig"; the destination
    node and the file path of the failed copy are read off this error; and
    no copy after the k-th is attempted: the failed copy is the last copy of
    the run, every copy before it succeeded, and the copies attempted are the
    first k+1 entries of the fixed order. *)
Theorem copy_failure_names_node_and_file nodeutils describe w k src dst file cause :
  retainsNodeAndPath host describe ->
  nth_error (copyEvents (traceOf (Execute host nodeutils w))) k
    = Some (Copy src dst file (Some cause)) ->
  resultOf (Execute host nodeutils w)
    = Err (Wrap cause "failed to copy admin kubeconfig")
  /\ failedCopyOf describe (Wrap cause "failed to copy admin kubeconfig")
     = (dst, file)
  /\ List.length (copyEvents (traceOf (Execute host nodeutils w))) = S k
  /\ (forall j e,
        j < k ->
        nth_error (copyEvents (traceOf (Execute host nodeutils w))) j = Some e ->
        isFailedCopy e = false)
  /\ (forall allNodes w1 others,
        host_nodes host w = (Ok allNodes, w1) ->
        SecondaryControlPlaneNodes nodeutils allNodes = Ok others ->
        nth_error (copySchedule others) k = Some (dst, file)
        /\ copiesOf (traceOf (Execute host nodeutils w))
           = firstn (S k) (copySchedule others)).
Proof.
  intros Hcontract Hk.
  destruct (copy_failure_aborts host nodeutils w k Hk)
    as (Hr & Hlen & Hbefore & Hsched).
  split; [exact Hr|].
  split; [|split; [exact Hlen|split; [exact Hbefore|exact Hsched]]].
  simpl.
  apply nth_error_In, In_copyEvents in Hk.
  pose proof (faithful_Execute nodeutils w) as Hf.
  rewrite Forall_forall in Hf. specialize (Hf _ Hk).
  destruct Hf as (w0 & w1 & Hcopy).
  exact (Hcontract _ _ _ _ _ _ Hcopy).
Qed.

End Faithful.

(** * The node selection, seen through the runs *)

Lemma Node_eqb_eq a b : Node_eqb a b = true -> a = b.
Proof.
  unfold Node_eqb. intros H. apply andb_prop in H. destruct H as [Hn Hr].
  apply String.eqb_eq in Hn.
  destruct a as [na ra], b as [nb rb]; simpl in *. subst nb.
  destruct ra, rb; simpl in Hr; congruence.
Qed.

Lemma refusingHost_retains : retainsNodeAndPath refusingHost describeRefusal.
Proof.
  intros src dst file w e w1. simpl.
  destruct (Node_eqb dst nodeD && String.eqb file "/etc/kubernetes/pki/ca.crt")
    eqn:E; [|discriminate].
  apply andb_prop in E. destruct E as [Hd Hf].
  apply Node_eqb_eq in Hd. apply String.eqb_eq in Hf. subst.
  reflexivity.
Qed.


(** Node D refuses ca.crt, the eleventh copy (number 10): the error of the
    run names D and ca.crt. *)
Lemma copy_failure_names_node_and_file_witness :
  retainsNodeAndPath refusingHost describeRefusal
  /\ nth_error (copyEvents (traceOf (Execute refusingHost specNodeUtils tt))) 10
     = Some (Copy nodeA nodeD "/etc/kubernetes/pki/ca.crt" (Some certRefused))
  /\ resultOf (Execute refusingHost specNodeUtils tt)
     = Err (Wrap certRefused "failed to copy admin kubeconfig")
  /\ failedCopyOf describeRefusal
       (Wrap certRefused "failed to copy admin kubeconfig")
     = (nodeD, "/etc/kubernetes/pki/ca.crt")
  /\ List.length (copyEvents (traceOf (Execute refusingHost specNodeUtils tt)))
     = 11.
Proof.
  split; [exact refusingHost_retains|].
  split; [reflexivity|].
  destruct (@copy_failure_names_node_and_file unit refusingHost specNodeUtils
              describeRefusal tt 10 nodeA nodeD "/etc/kubernetes/pki/ca.crt"
              certRefused refusingHost_retains eq_refl)
    as (Hr & Hn & Hl & _).
  split; [exact Hr|]. split; [exact Hn|exact Hl].
Defined.

